(** * Highway mileage lookup (highway_precision.py)

    A shallow embedding of the two pieces of logic in the program: the
    nearest-marker lookup [find_nearest_point] and the KML loader
    [load_all_kml_data], followed by the properties the specification states
    about them.

    Coordinates are Python floats, i.e. IEEE 754 binary64 numbers; they are
    modelled by Rocq's primitive [float], whose operations are the same
    binary64 operations.  Library calls the program makes (geopy's [geodesic],
    BeautifulSoup's parser, Python's [float()] and file reading) are taken as
    parameters of the sections that use them. *)

From Stdlib Require Import String Ascii DecimalString ZArith NArith Bool Floats Lia List.
Import ListNotations.

#[local] Set Warnings "-inexact-float".

(** * Part I: the model *)

(** ** Python strings

    A Python [str] is modelled by a Rocq [string] holding its UTF-8 encoding.
    The functions below are the [str] methods and the [os.path] function the
    loader calls; white space is what Python's [str.isspace] accepts, read off
    the encoded bytes. *)

Module PyStr.

Local Open Scope string_scope.

Definition code (c : ascii) : N := N_of_ascii c.

Definition between (lo hi b : N) : bool := ((lo <=? b) && (b <=? hi))%N.

(** The number of bytes of the white-space character [s] starts with, [0]
    when it starts with none.  Python's white space is U+0009-000D,
    U+001C-0020, U+0085, U+00A0, U+1680, U+2000-200A, U+2028, U+2029, U+202F,
    U+205F and U+3000; the last nine lines are their two- and three-byte
    encodings. *)
Definition space_width (s : string) : nat :=
  match s with
  | EmptyString => 0
  | String c0 s1 =>
      let b0 := code c0 in
      if between 9 13 b0 || between 28 32 b0 then 1
      else
        match s1 with
        | EmptyString => 0
        | String c1 s2 =>
            let b1 := code c1 in
            if ((b0 =? 194) && ((b1 =? 133) || (b1 =? 160)))%N then 2
            else
              match s2 with
              | EmptyString => 0
              | String c2 _ =>
                  let b2 := code c2 in
                  if ((b0 =? 225) && (b1 =? 154) && (b2 =? 128))%N then 3
                  else if ((b0 =? 226) && (b1 =? 128)
                           && (between 128 138 b2 || between 168 169 b2 || (b2 =? 175)))%N
                  then 3
                  else if ((b0 =? 226) && (b1 =? 129) && (b2 =? 159))%N then 3
                  else if ((b0 =? 227) && (b1 =? 128) && (b2 =? 128))%N then 3
                  else 0
              end
        end
  end.

Definition snoc (s : string) (c : ascii) : string := s ++ String c EmptyString.

(** The token read so far joins the result unless it is empty. *)
Definition flush (cur : string) : list string :=
  match cur with EmptyString => [] | _ => [cur] end.

(** [str.split()] as a scan: [cur] is the token being read and [skip] the
    number of bytes still to drop of the white-space character the scan is
    in. *)
Fixpoint split_from (skip : nat) (cur : string) (s : string) : list string :=
  match s with
  | EmptyString => flush cur
  | String c rest =>
      match skip with
      | S k => split_from k cur rest
      | O =>
          match space_width s with
          | O => split_from 0 (snoc cur c) rest
          | S k => flush cur ++ split_from k EmptyString rest
          end
      end
  end.

(** [s.split()]: the maximal runs of characters other than white space. *)
Definition split (s : string) : list string := split_from 0 EmptyString s.

Fixpoint lstrip_from (skip : nat) (s : string) : string :=
  match s with
  | EmptyString => EmptyString
  | String c rest =>
      match skip with
      | S k => lstrip_from k rest
      | O =>
          match space_width s with
          | O => s
          | S k => lstrip_from k rest
          end
      end
  end.

Fixpoint all_space_from (skip : nat) (s : string) : bool :=
  match s with
  | EmptyString => true
  | String c rest =>
      match skip with
      | S k => all_space_from k rest
      | O =>
          match space_width s with
          | O => false
          | S k => all_space_from k rest
          end
      end
  end.

(** [s.rstrip()]: [s] up to the point from which only white space follows. *)
Fixpoint rstrip (s : string) : string :=
  match s with
  | EmptyString => EmptyString
  | String c rest => if all_space_from 0 s then EmptyString else String c (rstrip rest)
  end.

(** [s.strip()]. *)
Definition strip (s : string) : string := rstrip (lstrip_from 0 s).

Fixpoint split_on_from (sep : ascii) (cur : string) (s : string) : list string :=
  match s with
  | EmptyString => [cur]
  | String c rest =>
      if Ascii.eqb c sep then cur :: split_on_from sep EmptyString rest
      else split_on_from sep (snoc cur c) rest
  end.

(** [s.split(sep)] for a one-character separator: the fields between the
    separators, empty ones included; never the empty list. *)
Definition split_on (sep : ascii) (s : string) : list string :=
  split_on_from sep EmptyString s.

Fixpoint basename_from (cur : string) (s : string) : string :=
  match s with
  | EmptyString => cur
  | String c rest =>
      if Ascii.eqb c "/" then basename_from EmptyString rest
      else basename_from (snoc cur c) rest
  end.

(** [os.path.basename(path)] on POSIX: what follows the last slash. *)
Definition basename (path : string) : string := basename_from EmptyString path.

(** *** Shapes of ASCII text, for stating what the functions do *)

Definition is_ascii_space (c : ascii) : bool :=
  between 9 13 (code c) || between 28 32 (code c).

(** A character of a token: ASCII and not white space. *)
Definition is_token_char (c : ascii) : bool :=
  (code c <? 128)%N && negb (is_ascii_space c).

Fixpoint all_chars (f : ascii -> bool) (s : string) : bool :=
  match s with
  | EmptyString => true
  | String c rest => f c && all_chars f rest
  end.

(** [s] is empty or starts with an ASCII white-space character. *)
Definition at_space (s : string) : bool :=
  match s with
  | EmptyString => true
  | String c _ => is_ascii_space c
  end.

Definition not_comma (c : ascii) : bool := negb (Ascii.eqb c ",").

(** [s] is empty or starts with a comma. *)
Definition at_comma (s : string) : bool :=
  match s with
  | EmptyString => true
  | String c _ => Ascii.eqb c ","
  end.

End PyStr.

(** ** The marker table *)

Local Open Scope float_scope.

(** One row of the table the loader builds: the columns [name], [lat], [lon]
    and [source] of the DataFrame. *)
Record Marker := {
  name : string;
  lat : float;
  lon : float;
  source : string
}.

(** The DataFrame, as the list of its rows in index order.  The loader
    concatenates with [ignore_index=True], so row labels are the positions
    0, 1, 2, ... *)
Definition DataFrame := list Marker.

(** A row of the frame once [find_nearest_point] has written its three scratch
    columns [diff_lat], [diff_lon] and [dist_sq]; the row the function returns
    is of this shape. *)
Record Row := {
  marker : Marker;
  diff_lat : float;
  diff_lon : float;
  dist_sq : float
}.

(** Lines 73-75: the scratch columns of one row.  [x**2] on a float64 column
    is the correctly rounded square, [x * x]. *)
Definition scratch (user_lat user_lon : float) (m : Marker) : Row :=
  let d_lat := lat m - user_lat in
  let d_lon := lon m - user_lon in
  {| marker := m;
     diff_lat := d_lat;
     diff_lon := d_lon;
     dist_sq := d_lat * d_lat + d_lon * d_lon |}.

(** *** [Series.idxmin]

    pandas computes [idxmin] (with its default [skipna=True]) by replacing
    every NaN by [+inf], taking numpy's [argmin] (the position of the first
    smallest value), and rejecting the result when the column is empty or all
    of it was NaN. *)

Definition fillna_inf (v : float) : float :=
  if is_nan v then infinity else v.

(** numpy's [argmin] as a left-to-right scan: [best] is the smallest value
    seen so far and [best_i] its position; a later value replaces it only when
    it is strictly smaller. *)
Fixpoint argmin_from (best_i : nat) (best : float) (i : nat) (vs : list float) : nat :=
  match vs with
  | [] => best_i
  | v :: vs' =>
      if v <? best then argmin_from i v (S i) vs'
      else argmin_from best_i best (S i) vs'
  end.

Definition argmin (vs : list float) : option nat :=
  match vs with
  | [] => None
  | v :: vs' => Some (argmin_from 0 v 1 vs')
  end.

(** [None] stands for the exception (or the NaN label that [df.loc] then
    rejects) pandas produces on an empty or all-NaN column. *)
Definition idxmin (col : list float) : option nat :=
  if forallb is_nan col then None
  else argmin (map fillna_inf col).

Section Lookup.

(** [geopy.distance.geodesic(p, q).meters]: the distance in meters between two
    (latitude, longitude) points on the WGS-84 ellipsoid.  The routine belongs
    to the geopy library, not to this program. *)
Variable geodesic : float * float -> float * float -> float.

(** Lines 71-83.  The result is [None] when the Python function raises.
    The scratch columns are written into [df] itself and overwritten by the
    next call; [df'] is the frame with them. *)
Definition find_nearest_point (df : DataFrame) (user_lat user_lon : float)
  : option (Row * float) :=
  let df' := map (scratch user_lat user_lon) df in
  match idxmin (map dist_sq df') with
  | None => None
  | Some i =>
      match nth_error df' i with
      | None => None
      | Some nearest_row =>
          let highway_pt := (lat (marker nearest_row), lon (marker nearest_row)) in
          let user_pt := (user_lat, user_lon) in
          let real_distance_m := geodesic user_pt highway_pt in
          Some (nearest_row, real_distance_m)
      end
  end.

End Lookup.

(** The degree-space squared distance of a marker from the query, i.e. the
    [dist_sq] column entry of its row. *)
Definition marker_dist_sq (user_lat user_lon : float) (m : Marker) : float :=
  dist_sq (scratch user_lat user_lon m).

(** The spec's data-model invariant: coordinates are decimal-degree numbers,
    so neither an infinity nor a NaN. *)
Definition finite_marker (m : Marker) : Prop :=
  is_finite (lat m) = true /\ is_finite (lon m) = true.


(** *** Ranking by geodesic distance

    The specification justifies ranking by [dist_sq] by saying that it orders
    the markers as the true distance does.  [find_nearest_by_geodesic] is the
    lookup that statement compares with: the same first-minimum selection, run
    directly on the geodesic distances from the query. *)
Definition find_nearest_by_geodesic
    (geodesic : float * float -> float * float -> float)
    (df : DataFrame) (user_lat user_lon : float) : option Marker :=
  match idxmin (map (fun m => geodesic (user_lat, user_lon) (lat m, lon m)) df) with
  | None => None
  | Some i => nth_error df i
  end.

(** The marker [find_nearest_point] selects, without the scratch columns and
    the distance. *)
Definition selected_marker
    (geodesic : float * float -> float * float -> float)
    (df : DataFrame) (user_lat user_lon : float) : option Marker :=
  option_map (fun r => marker (fst r)) (find_nearest_point geodesic df user_lat user_lon).

(** ** The KML loader *)

(** What the program reads of one [Placemark] element: the text of its first
    [name] descendant and of its first [coordinates] descendant, when there is
    one ([p.find('name')], [p.find('coordinates')]). *)
Record Placemark := {
  pm_name : option string;
  pm_coordinates : option string
}.

(** One dictionary of [data_list]: the keys [name], [lat] and [lon]. *)
Record Point := {
  pt_name : string;
  pt_lat : float;
  pt_lon : float
}.

(** What the program shows through [st.error], [st.warning], [st.success]. *)
Inductive Message :=
  | Error (text : string)
  | Warning (text : string)
  | Success (text : string).

Definition default_name : string := "未命名".

Section Loader.

(** Python's [float(s)]: [None] when it raises [ValueError]. *)
Variable py_float : string -> option float.

(** [BeautifulSoup(kml_content, 'xml').find_all('Placemark')], each element
    reduced to what the loop reads of it.  The parser is lenient and is taken
    not to raise. *)
Variable soup_placemarks : string -> list Placemark.

(** [glob.glob(os.path.join(data_folder, '*.kml'))]. *)
Variable glob_kml : string -> list string.

(** Opening and reading a file as UTF-8: the content, or the text of the
    exception raised. *)
Variable read_text : string -> string + string.

(** Lines 41-53, the body of the loop over the placemarks: the dictionary
    appended to [data_list], or [None] when nothing is appended (no
    coordinates element, fewer than two components, or an exception, which the
    [except] clause turns into [continue]). *)
Definition parse_placemark (p : Placemark) : option Point :=
  let name := match pm_name p with Some text => text | None => default_name end in
  match pm_coordinates p with
  | None => None
  | Some text =>
      match PyStr.split (PyStr.strip text) with
      | [] => None
      | coords_text :: _ =>
          match PyStr.split_on "," coords_text with
          | part0 :: part1 :: _ =>
              match py_float part0 with
              | None => None
              | Some lon =>
                  match py_float part1 with
                  | None => None
                  | Some lat => Some {| pt_name := name; pt_lat := lat; pt_lon := lon |}
                  end
              end
          | _ => None
          end
      end
  end.

(** The loop of lines 39-53 over already extracted placemarks. *)
Fixpoint parse_placemarks (placemarks : list Placemark) : list Point :=
  match placemarks with
  | [] => []
  | p :: rest =>
      match parse_placemark p with
      | Some pt => pt :: parse_placemarks rest
      | None => parse_placemarks rest
      end
  end.

(** Lines 35-54. *)
Definition parse_kml_content (kml_content : string) : list Point :=
  parse_placemarks (soup_placemarks kml_content).

(** Line 62: the [source] column added to a file's rows. *)
Definition with_source (src : string) (pt : Point) : Marker :=
  {| name := pt_name pt; lat := pt_lat pt; lon := pt_lon pt; source := src |}.

(** Lines 57-65, the body of the loop over the files, on the state it
    updates: the list [all_data] and the messages shown so far. *)
Definition load_file (st : list DataFrame * list Message) (filepath : string)
  : list DataFrame * list Message :=
  let (all_data, shown) := st in
  match read_text filepath with
  | inl content =>
      match parse_kml_content content with
      | [] => (all_data, shown)
      | df_kml =>
          (all_data ++ [map (with_source (PyStr.basename filepath)) df_kml], shown)%list
      end
  | inr e =>
      (all_data,
       (shown ++ [Warning ("⚠️ 無法讀取檔案 " ++ PyStr.basename filepath ++ ": " ++ e)%string])%list)
  end.

(** Lines 29-69, after the [glob]. *)
Definition load_files (kml_files : list string) (data_folder : string)
  : option DataFrame * list Message :=
  match kml_files with
  | [] =>
      (None,
       [Error ("❌ 在 " ++ data_folder ++ " 資料夾中找不到 KML 檔案。請確認檔案已放置。")%string])
  | _ =>
      let (all_data, shown) := fold_left load_file kml_files ([], []) in
      match all_data with
      | [] => (None, shown)
      | _ => (Some (concat all_data), shown)
      end
  end.

(** Lines 24-69.  The [st.cache_data] decorator only memoizes the call. *)
Definition load_all_kml_data (data_folder : string) : option DataFrame * list Message :=
  load_files (glob_kml data_folder) data_folder.

Definition decimal (n : nat) : string := NilEmpty.string_of_uint (Nat.to_uint n).

(** Lines 89-194, as far as the loader decides them: the messages shown and
    the table handed to the query form; [None] when the script ends without
    offering the form. *)
Definition startup : list Message * option DataFrame :=
  let (df_all, shown) := load_all_kml_data "./data/" in
  match df_all with
  | Some df =>
      ((shown
          ++ [Success ("✅ 資料載入成功！共 " ++ decimal (List.length df) ++ " 個里程點。")%string])%list,
       Some df)
  | None =>
      ((shown ++ [Error "請確認您已在程式旁的 `/data` 資料夾中放入 KML 檔案。"])%list, None)
  end.

(** A file adds nothing to [all_data] when it cannot be read or when no
    placemark of it yields a point. *)
Definition contributes_nothing (filepath : string) : Prop :=
  match read_text filepath with
  | inl content => parse_kml_content content = []
  | inr _ => True
  end.

(** The rows a file contributes: parsed from its content, with its basename
    as [source]. *)
Definition row_of_file (filepath : string) (r : Marker) : Prop :=
  exists content pt,
    read_text filepath = inl content /\
    In pt (parse_kml_content content) /\
    r = with_source (PyStr.basename filepath) pt.

End Loader.

(** ** The coordinate form and the result panel

    The rest of the script: the conversion of degrees, minutes and seconds,
    the two input formats, and what pressing the query button shows. *)

Module PyStrMore.

Local Open Scope string_scope.

(** [str.replace(old, '')] as a scan: at a position where [old] starts, its
    characters are dropped ([skip] counts those still to drop) and the scan
    resumes after it; any other character is kept. *)
Fixpoint remove_from (old : string) (skip : nat) (s : string) : string :=
  match s with
  | EmptyString => EmptyString
  | String c rest =>
      match skip with
      | S k => remove_from old k rest
      | O =>
          if String.prefix old s then remove_from old (String.length old - 1) rest
          else String c (remove_from old 0 rest)
      end
  end.

(** [s.replace(old, '')] for a non-empty [old]. *)
Definition remove (old s : string) : string := remove_from old 0 s.

Definition not_dot (c : ascii) : bool := negb (Ascii.eqb c ".").

Definition not_slash (c : ascii) : bool := negb (Ascii.eqb c "/").

End PyStrMore.

(** Lines 18-21.  The form passes whole numbers for [deg] and [minute]; Python
    converts them to floats, exactly, before adding and dividing.  The
    [st.cache_data] decorator only memoizes the call. *)
Definition dms_to_dd (deg minute sec : float) : float :=
  deg + minute / 60 + sec / 3600.



(** Lines 173-176: the warning or the success message under the metrics. *)
Inductive Verdict := TooFar | Precise.

(** Lines 162-189: the result panel, before its numbers are formatted: the
    three metrics, the verdict, and the two points of the map (the query
    first; their fixed colours and sizes are left out). *)
Record ResultPanel := {
  source_file : string;
  mileage_name : string;
  dist_m : float;
  verdict : Verdict;
  map_data : list (float * float)
}.

Definition show_result (result : Row) (distance u_lat u_lon : float) : ResultPanel :=
  {| source_file := PyStrMore.remove ".kml" (source (marker result));
     mileage_name := name (marker result);
     dist_m := distance;
     verdict := if 200 <? distance then TooFar else Precise;
     map_data := [ (u_lat, u_lon); (lat (marker result), lon (marker result)) ] |}.

Section Query.

Variable geodesic : float * float -> float * float -> float.


End Query.


(** The rows of a loader result, none when it is [None]. *)
Definition rows (result : option DataFrame) : DataFrame :=
  match result with Some df => df | None => [] end.

Section LoaderMore.
Variable read_text : string -> string + string.

(** The warnings the loop over the files shows: one for each file that cannot
    be read, in the order of the files. *)
Definition warnings (files : list string) : list Message :=
  flat_map (fun f =>
              match read_text f with
              | inl _ => []
              | inr e => [Warning ("⚠️ 無法讀取檔案 " ++ PyStr.basename f ++ ": " ++ e)%string]
              end) files.
End LoaderMore.

(** ** Sample data

    A planar stand-in for the geodesic routine, valid near latitude 25 N (the
    highways of the data set): one degree of latitude is 110772.886 m and one
    degree of longitude 100950.090 m there on the WGS-84 ellipsoid. *)
Definition metres_near_25N (p q : float * float) : float :=
  let north := 110772.886 * (fst q - fst p) in
  let east := 100950.090 * (snd q - snd p) in
  sqrt (north * north + east * east).

Definition sample_table : DataFrame :=
  [ {| name := "023K+500"; lat := 25.0330; lon := 121.5654; source := "N1.kml" |};
    {| name := "021K+000"; lat := 25.0478; lon := 121.5170; source := "N1.kml" |};
    {| name := "047K+200"; lat := 24.9936; lon := 121.3010; source := "N3.kml" |} ].

(** Two markers about a kilometre from the query (25, 121): [east_marker] is
    0.0102 degrees of longitude away (1029.69 m on the ellipsoid),
    [north_marker] 0.0100 degrees of latitude (1107.73 m). *)
Definition east_marker : Marker :=
  {| name := "east"; lat := 25.0; lon := 121.0102; source := "N1.kml" |}.

Definition north_marker : Marker :=
  {| name := "north"; lat := 25.01; lon := 121.0; source := "N1.kml" |}.

(** A stand-in for Python's [float()] that knows the numbers of the sample
    files. *)
Definition sample_float (s : string) : option float :=
  if String.eqb s "121.5654" then Some 121.5654
  else if String.eqb s "25.0330" then Some 25.0330
  else if String.eqb s "121.5170" then Some 121.5170
  else if String.eqb s "25.0478" then Some 25.0478
  else if String.eqb s "0" then Some 0
  else None.

(** Four placemarks: a well-formed one with two coordinate tuples, one whose
    coordinates are not numbers, one without [name], one without
    [coordinates]. *)
Definition sample_placemark : Placemark :=
  {| pm_name := Some "023K+500"%string;
     pm_coordinates := Some " 121.5654,25.0330,0  121.5170,25.0478,0 "%string |}.

Definition malformed_placemark : Placemark :=
  {| pm_name := Some "broken"%string; pm_coordinates := Some "abc,def"%string |}.

Definition unnamed_placemark : Placemark :=
  {| pm_name := None; pm_coordinates := Some "121.5170,25.0478"%string |}.

Definition sample_soup (kml_content : string) : list Placemark :=
  if String.eqb kml_content "<kml>N1</kml>" then
    [ sample_placemark; malformed_placemark; unnamed_placemark;
      {| pm_name := Some "no coordinates"%string; pm_coordinates := None |} ]
  else [].

(** A data folder whose only files are an unreadable one and one without
    placemarks, and the reading of three files: N1 readable, N2 unreadable,
    N3 readable and without placemarks. *)
Definition sample_glob (data_folder : string) : list string :=
  [ "./data/N2.kml"; "./data/N3.kml" ]%string.

Definition sample_read (filepath : string) : string + string :=
  if String.eqb filepath "./data/N1.kml" then inl "<kml>N1</kml>"%string
  else if String.eqb filepath "./data/N2.kml" then inr "[Errno 13] Permission denied"%string
  else inl "<kml></kml>"%string.

(** ** Auxiliary predicates on [spec_float] and proof automation *)

Definition sf_nonnan (x : spec_float) : bool :=
  match x with S754_nan => false | _ => true end.

Definition sf_finite (x : spec_float) : bool :=
  match x with S754_zero _ | S754_finite _ _ _ => true | _ => false end.

(** [sf_signed s x]: [x] is a number (not a NaN) whose sign bit is [s]. *)
Definition sf_signed (s : bool) (x : spec_float) : Prop :=
  match x with
  | S754_zero s' | S754_infinity s' | S754_finite s' _ _ => s' = s
  | S754_nan => False
  end.

(** [sf_opposite x y]: [y] is [- x], or both are [+0]; how [a - b] and
    [b - a] are related. *)
Definition sf_opposite (x y : spec_float) : Prop :=
  y = SFopp x \/ (x = S754_zero false /\ y = S754_zero false).

Ltac sf_cases :=
  repeat match goal with
  | x : spec_float |- _ => destruct x as [[]|[]| |[] ? ?]
  end;
  unfold SFleb, SFltb, SFeqb; simpl; try congruence.

Ltac cmp_cases :=
  repeat match goal with
  | |- context [Z.compare ?a ?b] => destruct (Z.compare_spec a b)
  | H : context [Z.compare ?a ?b] |- _ => destruct (Z.compare_spec a b)
  | |- context [Pos.compare_cont Eq ?a ?b] =>
      change (Pos.compare_cont Eq a b) with (Pos.compare a b);
      destruct (Pos.compare_spec a b)
  | H : context [Pos.compare_cont Eq ?a ?b] |- _ =>
      change (Pos.compare_cont Eq a b) with (Pos.compare a b) in H;
      destruct (Pos.compare_spec a b)
  end; simpl in *; try congruence; try lia.

(** * Part II: facts about the model *)

(** ** Binary64 arithmetic

    Everything here is derived from the specification of the primitive
    operations in terms of [spec_float] (the [FloatAxioms] of the standard
    library). *)

Module Float64.

(** *** The order on [spec_float] *)

Lemma SFleb_trans x y z :
  SFleb x y = true -> SFleb y z = true -> SFleb x z = true.
Proof. sf_cases; cmp_cases. Qed.


Lemma SFleb_ltb_trans x y z :
  SFleb x y = true -> SFltb y z = true -> SFltb x z = true.
Proof. sf_cases; cmp_cases. Qed.





Lemma SFleb_nonnan x y :
  SFleb x y = true -> sf_nonnan x = true /\ sf_nonnan y = true.
Proof. sf_cases; auto. Qed.


Lemma SFleb_infinity x : sf_nonnan x = true -> SFleb x (S754_infinity false) = true.
Proof. sf_cases. Qed.

(** *** Rounding never produces a NaN and keeps the sign it is given *)

Lemma shr_1_nonneg r : (0 <= shr_m r)%Z -> (0 <= shr_m (shr_1 r))%Z.
Proof.
  destruct r as [m r s]; simpl.
  destruct m as [|[p|p|]|[p|p|]]; simpl; lia.
Qed.

Lemma iter_shr_1_nonneg p : forall r,
  (0 <= shr_m r)%Z -> (0 <= shr_m (iter_pos shr_1 p r))%Z.
Proof.
  induction p as [p IH|p IH|]; simpl; intros r Hr.
  - apply IH, IH, shr_1_nonneg, Hr.
  - apply IH, IH, Hr.
  - apply shr_1_nonneg, Hr.
Qed.

Lemma shr_nonneg r e n : (0 <= shr_m r)%Z -> (0 <= shr_m (fst (shr r e n)))%Z.
Proof.
  intros Hr. destruct n; simpl; auto using iter_shr_1_nonneg.
Qed.

Lemma shr_fexp_nonneg m e l :
  (0 <= m)%Z -> (0 <= shr_m (fst (shr_fexp prec emax m e l)))%Z.
Proof.
  intros Hm. unfold shr_fexp. apply shr_nonneg.
  destruct l as [|[]]; simpl; exact Hm.
Qed.

Lemma round_nearest_even_nonneg m l :
  (0 <= m)%Z -> (0 <= round_nearest_even m l)%Z.
Proof.
  intros Hm. destruct l as [|[]]; simpl; try lia.
  destruct (Z.even m); lia.
Qed.

Lemma binary_round_aux_signed sx mx ex lx :
  (0 <= mx)%Z -> sf_signed sx (binary_round_aux prec emax sx mx ex lx).
Proof.
  intros Hm. unfold binary_round_aux.
  pose proof (shr_fexp_nonneg mx ex lx Hm) as H1.
  destruct (shr_fexp prec emax mx ex lx) as [mrs' e'] eqn:E1. simpl in H1.
  pose proof (shr_fexp_nonneg
                (round_nearest_even (shr_m mrs') (loc_of_shr_record mrs')) e' loc_Exact
                (round_nearest_even_nonneg _ _ H1)) as H2.
  destruct (shr_fexp prec emax _ e' loc_Exact) as [mrs'' e''] eqn:E2. simpl in H2.
  destruct (shr_m mrs'') as [|p|p]; cbn [sf_signed].
  - reflexivity.
  - destruct (Z.leb e'' (emax - prec)); reflexivity.
  - lia.
Qed.

Lemma binary_round_signed sx mx ex : sf_signed sx (binary_round prec emax sx mx ex).
Proof.
  unfold binary_round.
  destruct (shl_align mx ex _) as [mz ez].
  apply binary_round_aux_signed. lia.
Qed.

Lemma binary_normalize_nonnan m e sz :
  sf_nonnan (binary_normalize prec emax m e sz) = true.
Proof.
  destruct m as [|p|p]; simpl; auto.
  - pose proof (binary_round_signed false p e) as H.
    destruct (binary_round prec emax false p e); simpl in *; auto.
  - pose proof (binary_round_signed true p e) as H.
    destruct (binary_round prec emax true p e); simpl in *; auto.
Qed.

Lemma sf_signed_false_nonneg x :
  sf_signed false x -> SFleb (S754_zero false) x = true.
Proof.
  destruct x as [s|s| |s m e]; simpl; intros H;
    try subst s; try reflexivity; contradiction.
Qed.

(** *** The three operations the lookup uses *)

Lemma SF64sub_finite_nonnan x y :
  sf_finite x = true -> sf_finite y = true -> sf_nonnan (SF64sub x y) = true.
Proof.
  unfold SF64sub.
  destruct x as [[]|[]| |sx mx ex], y as [[]|[]| |sy my ey];
    simpl; try discriminate; auto;
    intros _ _; apply binary_normalize_nonnan.
Qed.

Lemma SF64sub_diag x : sf_finite x = true -> SF64sub x x = S754_zero false.
Proof.
  unfold SF64sub.
  destruct x as [[]|[]| |sx mx ex]; try (simpl; first [discriminate | reflexivity]).
  intros _. unfold SFsub. rewrite Z.sub_diag. reflexivity.
Qed.

Lemma SF64mul_self_nonneg x :
  sf_nonnan x = true -> SFleb (S754_zero false) (SF64mul x x) = true.
Proof.
  unfold SF64mul.
  destruct x as [[]|[]| |sx mx ex]; simpl; try discriminate; auto.
  intros _. apply sf_signed_false_nonneg.
  rewrite xorb_nilpotent. apply binary_round_aux_signed. lia.
Qed.

Lemma SF64add_nonneg x y :
  SFleb (S754_zero false) x = true -> SFleb (S754_zero false) y = true ->
  SFleb (S754_zero false) (SF64add x y) = true.
Proof.
  unfold SF64add.
  destruct x as [[]|[]| |[] mx ex], y as [[]|[]| |[] my ey];
    try (simpl; first [discriminate | reflexivity]).
  intros _ _. apply sf_signed_false_nonneg.
  unfold SFadd, cond_Zopp.
  set (a := fst (shl_align mx ex (Z.min ex ey))).
  set (b := fst (shl_align my ey (Z.min ex ey))).
  change (Z.pos a + Z.pos b)%Z with (Z.pos (a + b)).
  apply binary_round_signed.
Qed.

(** *** The same facts on primitive floats *)

Lemma is_nan_spec x : is_nan x = negb (sf_nonnan (Prim2SF x)).
Proof.
  unfold is_nan. rewrite eqb_spec. unfold SFeqb.
  destruct (Prim2SF x) as [[]|[]| |[] m e]; simpl; try reflexivity;
    rewrite Z.compare_refl, Pos.compare_cont_refl; reflexivity.
Qed.

Lemma not_nan_nonnan x : is_nan x = false <-> sf_nonnan (Prim2SF x) = true.
Proof.
  rewrite is_nan_spec. destruct (sf_nonnan (Prim2SF x)); simpl; intuition congruence.
Qed.

Lemma is_finite_spec x : is_finite x = true -> sf_finite (Prim2SF x) = true.
Proof.
  unfold is_finite, is_infinity.
  rewrite is_nan_spec, eqb_spec, abs_spec.
  change (Prim2SF infinity) with (S754_infinity false).
  destruct (Prim2SF x) as [[]|[]| |[] m e]; simpl; congruence.
Qed.

Lemma is_finite_not_nan x : is_finite x = true -> is_nan x = false.
Proof.
  unfold is_finite. destruct (is_nan x); simpl; congruence.
Qed.


Lemma leb_trans x y z : (x <=? y) = true -> (y <=? z) = true -> (x <=? z) = true.
Proof. rewrite !leb_spec. apply SFleb_trans. Qed.


Lemma leb_ltb_trans x y z : (x <=? y) = true -> (y <? z) = true -> (x <? z) = true.
Proof. rewrite !leb_spec, !ltb_spec. apply SFleb_ltb_trans. Qed.




Lemma leb_not_nan x y : (x <=? y) = true -> is_nan x = false /\ is_nan y = false.
Proof. rewrite leb_spec, !not_nan_nonnan. apply SFleb_nonnan. Qed.


Lemma leb_infinity x : is_nan x = false -> (x <=? infinity) = true.
Proof.
  rewrite leb_spec, not_nan_nonnan.
  change (Prim2SF infinity) with (S754_infinity false). apply SFleb_infinity.
Qed.

Lemma sub_finite_not_nan a b :
  is_finite a = true -> is_finite b = true -> is_nan (a - b) = false.
Proof.
  intros Ha Hb. rewrite not_nan_nonnan, sub_spec.
  apply SF64sub_finite_nonnan; apply is_finite_spec; assumption.
Qed.

Lemma sub_diag a : is_finite a = true -> a - a = 0.
Proof.
  intros Ha. apply Prim2SF_inj. rewrite sub_spec.
  rewrite SF64sub_diag by (apply is_finite_spec; exact Ha). reflexivity.
Qed.

Lemma square_nonneg x : is_nan x = false -> (0 <=? x * x) = true.
Proof.
  rewrite leb_spec, mul_spec, not_nan_nonnan.
  change (Prim2SF 0) with (S754_zero false). apply SF64mul_self_nonneg.
Qed.

Lemma add_nonneg x y :
  (0 <=? x) = true -> (0 <=? y) = true -> (0 <=? x + y) = true.
Proof.
  rewrite !leb_spec, add_spec.
  change (Prim2SF 0) with (S754_zero false). apply SF64add_nonneg.
Qed.

End Float64.

(** ** Binary64 arithmetic: division, zero and the sign of a difference *)

Module Float64More.

Lemma binary_round_aux_opp s m e l :
  binary_round_aux prec emax (negb s) m e l = SFopp (binary_round_aux prec emax s m e l).
Proof.
  unfold binary_round_aux.
  destruct (shr_fexp prec emax m e l) as [mrs' e'].
  destruct (shr_fexp prec emax _ e' loc_Exact) as [mrs'' e''].
  destruct (shr_m mrs''); try reflexivity.
  destruct (Z.leb e'' (emax - prec)); reflexivity.
Qed.

Lemma binary_round_opp s m e :
  binary_round prec emax (negb s) m e = SFopp (binary_round prec emax s m e).
Proof.
  unfold binary_round. destruct (shl_align m e _) as [mz ez].
  apply binary_round_aux_opp.
Qed.

Lemma binary_normalize_opp m e :
  sf_opposite (binary_normalize prec emax m e false)
              (binary_normalize prec emax (- m) e false).
Proof.
  destruct m as [|p|p]; simpl.
  - right. auto.
  - left. apply (binary_round_opp false).
  - left. change false with (negb true) at 1.
    rewrite binary_round_opp. destruct (binary_round prec emax true p e) as [[]|[]| |[] ? ?]; reflexivity.
Qed.

Lemma SF64sub_swap x y : sf_opposite (SF64sub x y) (SF64sub y x).
Proof.
  unfold SF64sub.
  destruct x as [sx|sx| |sx mx ex], y as [sy|sy| |sy my ey];
    try (destruct sx; try destruct sy; simpl;
         first [left; reflexivity | right; split; reflexivity]);
    try (destruct sy; simpl; first [left; reflexivity | right; split; reflexivity]);
    try (simpl; first [left; reflexivity | right; split; reflexivity]).
  unfold SFsub. rewrite (Z.min_comm ey ex).
  set (a := cond_Zopp sx _). set (b := cond_Zopp sy _).
  replace (b - a)%Z with (- (a - b))%Z by lia.
  apply binary_normalize_opp.
Qed.

Lemma SF64mul_opp x : SF64mul (SFopp x) (SFopp x) = SF64mul x x.
Proof.
  unfold SF64mul. destruct x as [[]|[]| |[] m e]; reflexivity.
Qed.

Lemma square_sub_swap a b : (a - b) * (a - b) = (b - a) * (b - a).
Proof.
  apply Prim2SF_inj. rewrite !mul_spec, !sub_spec.
  destruct (SF64sub_swap (Prim2SF a) (Prim2SF b)) as [-> | [-> ->]].
  - rewrite SF64mul_opp. reflexivity.
  - reflexivity.
Qed.



(** Dividing a non-negative number by a positive finite one. *)
Lemma SF64div_nonneg x my ey :
  SFleb (S754_zero false) x = true ->
  SFleb (S754_zero false) (SF64div x (S754_finite false my ey)) = true.
Proof.
  unfold SF64div.
  destruct x as [[]|[]| |[] mx ex]; try (simpl; first [discriminate | reflexivity]).
  intros _. unfold SFdiv.
  destruct (SFdiv_core_binary prec emax (Z.pos mx) ex (Z.pos my) ey) as [[mz ez] lz] eqn:E.
  apply Float64.sf_signed_false_nonneg.
  apply (Float64.binary_round_aux_signed false).
  unfold SFdiv_core_binary in E.
  set (s := (ex - ey - _)%Z) in E.
  set (m' := match s with Z.pos _ => Z.shiftl (Z.pos mx) s | Z0 => Z.pos mx | Z.neg _ => 0%Z end) in E.
  assert (Hm' : (0 <= m')%Z).
  { subst m'. destruct s; try lia. apply Z.shiftl_nonneg. lia. }
  pose proof (Z_div_mod m' (Z.pos my) eq_refl) as Hdiv.
  destruct (Z.div_eucl m' (Z.pos my)) as [q r].
  injection E as <- _ _. destruct Hdiv as [Heq Hr]. nia.
Qed.

Lemma div_nonneg x y my ey :
  Prim2SF y = S754_finite false my ey ->
  (0 <=? x) = true -> (0 <=? x / y) = true.
Proof.
  intros Hy. rewrite !leb_spec, div_spec, Hy.
  change (Prim2SF 0) with (S754_zero false). apply SF64div_nonneg.
Qed.

(** Adding [+0] changes nothing up to the sign of a zero. *)
Lemma SF64add_zero_eqb x :
  sf_nonnan x = true -> SFeqb (SF64add x (S754_zero false)) x = true.
Proof.
  unfold SF64add, SFeqb.
  destruct x as [[]|[]| |[] mx ex]; simpl; try discriminate; try reflexivity;
    intros _; rewrite Z.compare_refl, Pos.compare_cont_refl; reflexivity.
Qed.

Lemma SFeqb_trans x y z : SFeqb x y = true -> SFeqb y z = true -> SFeqb x z = true.
Proof. sf_cases; cmp_cases. Qed.

Lemma SFeqb_nonnan x y : SFeqb x y = true -> sf_nonnan x = true.
Proof. sf_cases. Qed.

Lemma add_zero_eqb x : is_nan x = false -> (x + 0 =? x) = true.
Proof.
  rewrite Float64.not_nan_nonnan, eqb_spec, add_spec.
  change (Prim2SF 0) with (S754_zero false). apply SF64add_zero_eqb.
Qed.

End Float64More.

(** ** Python strings on ASCII text *)

Module PyStrFacts.

Import PyStr.
Local Open Scope string_scope.

Lemma append_assoc (a b c : string) : ((a ++ b) ++ c = a ++ (b ++ c))%string.
Proof. induction a as [|x a IH]; simpl; [reflexivity | rewrite IH; reflexivity]. Qed.

Lemma append_nil_r (a : string) : (a ++ "" = a)%string.
Proof. induction a as [|x a IH]; simpl; [reflexivity | rewrite IH; reflexivity]. Qed.

Lemma snoc_append (cur : string) (c : ascii) (s : string) :
  (snoc cur c ++ s = cur ++ String c s)%string.
Proof. unfold snoc. rewrite append_assoc. reflexivity. Qed.

Lemma space_width_space c s : is_ascii_space c = true -> space_width (String c s) = 1%nat.
Proof. unfold is_ascii_space. simpl. intros ->. reflexivity. Qed.

Lemma space_width_token c s : is_token_char c = true -> space_width (String c s) = 0%nat.
Proof.
  unfold is_token_char, is_ascii_space. intros H.
  apply andb_true_iff in H as [Hlt Hns]. apply negb_true_iff in Hns.
  apply N.ltb_lt in Hlt.
  simpl. rewrite Hns.
  destruct s as [|c1 s]; [reflexivity|].
  assert (H194 : ((code c =? 194) = false)%N) by (apply N.eqb_neq; lia).
  rewrite H194. simpl.
  destruct s as [|c2 s]; [reflexivity|].
  assert (H225 : ((code c =? 225) = false)%N) by (apply N.eqb_neq; lia).
  assert (H226 : ((code c =? 226) = false)%N) by (apply N.eqb_neq; lia).
  assert (H227 : ((code c =? 227) = false)%N) by (apply N.eqb_neq; lia).
  rewrite H225, H226, H227. reflexivity.
Qed.

Lemma lstrip_spaces lead s :
  all_chars is_ascii_space lead = true ->
  lstrip_from 0 (lead ++ s) = lstrip_from 0 s.
Proof.
  induction lead as [|c lead IH]; intros H; [reflexivity|].
  simpl in H. apply andb_true_iff in H as [Hc Hl].
  change ((String c lead ++ s)%string) with (String c (lead ++ s)).
  cbn [lstrip_from]. rewrite (space_width_space c _ Hc). apply IH, Hl.
Qed.

Lemma lstrip_token c s : is_token_char c = true -> lstrip_from 0 (String c s) = String c s.
Proof. intros H. cbn [lstrip_from]. rewrite (space_width_token c s H). reflexivity. Qed.

Lemma rstrip_token tok s :
  all_chars is_token_char tok = true -> rstrip (tok ++ s) = (tok ++ rstrip s)%string.
Proof.
  induction tok as [|c tok IH]; intros H; [reflexivity|].
  simpl in H. apply andb_true_iff in H as [Hc Ht].
  change ((String c tok ++ s)%string) with (String c (tok ++ s)).
  cbn [rstrip all_space_from]. rewrite (space_width_token c _ Hc).
  rewrite IH by exact Ht. reflexivity.
Qed.

Lemma rstrip_at_space s : at_space s = true -> at_space (rstrip s) = true.
Proof.
  destruct s as [|c s]; [reflexivity|]. intros H.
  cbn [rstrip]. destruct (all_space_from 0 (String c s)); [reflexivity | exact H].
Qed.

Lemma split_from_token tok cur s :
  all_chars is_token_char tok = true ->
  split_from 0 cur (tok ++ s) = split_from 0 (cur ++ tok) s.
Proof.
  revert cur. induction tok as [|c tok IH]; intros cur H.
  - simpl. rewrite append_nil_r. reflexivity.
  - simpl in H. apply andb_true_iff in H as [Hc Ht].
    change ((String c tok ++ s)%string) with (String c (tok ++ s)).
    cbn [split_from]. rewrite (space_width_token c _ Hc).
    rewrite IH by exact Ht. rewrite snoc_append. reflexivity.
Qed.

Lemma split_from_at_space cur s :
  cur <> EmptyString -> at_space s = true ->
  exists more, split_from 0 cur s = cur :: more.
Proof.
  intros Hcur Hs. destruct s as [|c s].
  - exists []. simpl. destruct cur; [congruence | reflexivity].
  - simpl in Hs. cbn [split_from]. rewrite (space_width_space c s Hs).
    exists (split_from 0 EmptyString s).
    destruct cur; [congruence | reflexivity].
Qed.

(** The first token of [lead ++ tok ++ trail], with [lead] white space, [tok]
    a non-empty run of token characters and [trail] empty or starting with
    white space, is [tok]. *)
Lemma split_strip_first_token lead tok trail :
  all_chars is_ascii_space lead = true ->
  tok <> EmptyString ->
  all_chars is_token_char tok = true ->
  at_space trail = true ->
  exists more, split (strip (lead ++ tok ++ trail)) = tok :: more.
Proof.
  intros Hlead Hne Htok Htrail. unfold split, strip.
  rewrite lstrip_spaces by exact Hlead.
  destruct tok as [|c tok]; [congruence|].
  pose proof Htok as Htok'. simpl in Htok'. apply andb_true_iff in Htok' as [Hc _].
  change ((String c tok ++ trail)%string) with (String c (tok ++ trail)).
  rewrite lstrip_token by exact Hc.
  change (String c (tok ++ trail)) with ((String c tok ++ trail)%string).
  rewrite rstrip_token, split_from_token by exact Htok.
  apply split_from_at_space; [discriminate|].
  apply rstrip_at_space, Htrail.
Qed.

Lemma split_on_from_field a cur s :
  all_chars not_comma a = true ->
  split_on_from "," cur (a ++ s) = split_on_from "," (cur ++ a) s.
Proof.
  revert cur. induction a as [|c a IH]; intros cur H.
  - simpl. rewrite append_nil_r. reflexivity.
  - simpl in H. apply andb_true_iff in H as [Hc Ha].
    unfold not_comma in Hc. apply negb_true_iff in Hc.
    change ((String c a ++ s)%string) with (String c (a ++ s)).
    cbn [split_on_from]. rewrite Hc, IH by exact Ha.
    rewrite snoc_append. reflexivity.
Qed.

Lemma split_on_from_at_comma cur s :
  at_comma s = true -> exists more, split_on_from "," cur s = cur :: more.
Proof.
  destruct s as [|c s]; intros H.
  - exists []. reflexivity.
  - simpl in H. cbn [split_on_from]. rewrite H. eexists. reflexivity.
Qed.

(** A text without comma is a single component. *)
Lemma split_on_comma_single tok :
  all_chars not_comma tok = true -> split_on "," tok = [tok].
Proof.
  intros H. unfold split_on.
  rewrite <- (append_nil_r tok) at 1.
  rewrite split_on_from_field by exact H. reflexivity.
Qed.

(** The first two components of [a,b] followed by nothing or by a comma. *)
Lemma split_on_comma_two a b more :
  all_chars not_comma a = true -> all_chars not_comma b = true ->
  at_comma more = true ->
  exists others, split_on "," (a ++ String "," (b ++ more)) = a :: b :: others.
Proof.
  intros Ha Hb Hmore. unfold split_on.
  rewrite split_on_from_field by exact Ha.
  cbn [append split_on_from]. rewrite Ascii.eqb_refl.
  rewrite split_on_from_field by exact Hb.
  destruct (split_on_from_at_comma (EmptyString ++ b) more Hmore) as [others Ho].
  rewrite Ho. exists others. reflexivity.
Qed.

End PyStrFacts.

Module PyStrMoreFacts.
Import PyStr PyStrMore PyStrFacts.
Local Open Scope string_scope.

Lemma remove_kml_prefix stem s :
  all_chars not_dot stem = true ->
  remove ".kml" (stem ++ s) = stem ++ remove ".kml" s.
Proof.
  unfold remove. induction stem as [|c stem IH]; intros H; [reflexivity|].
  simpl in H. apply andb_true_iff in H as [Hc Hs].
  unfold not_dot in Hc. apply negb_true_iff in Hc.
  change ((String c stem ++ s)) with (String c (stem ++ s)).
  cbn [remove_from String.prefix].
  destruct (ascii_dec "." c) as [<-|Hne].
  - rewrite Ascii.eqb_refl in Hc. discriminate.
  - rewrite IH by exact Hs. reflexivity.
Qed.

Lemma remove_kml_here s : remove ".kml" (".kml" ++ s) = remove ".kml" s.
Proof. unfold remove. destruct s; reflexivity. Qed.

Lemma basename_from_file cur file :
  all_chars not_slash file = true -> basename_from cur file = cur ++ file.
Proof.
  revert cur. induction file as [|c file IH]; intros cur H.
  - simpl. rewrite append_nil_r. reflexivity.
  - simpl in H. apply andb_true_iff in H as [Hc Hf].
    unfold not_slash in Hc. apply negb_true_iff in Hc.
    cbn [basename_from]. rewrite Hc, IH by exact Hf.
    apply snoc_append.
Qed.

Lemma basename_from_dir dir rest : forall cur,
  basename_from cur (dir ++ String "/" rest) = basename_from EmptyString rest.
Proof.
  induction dir as [|c dir IH]; intros cur.
  - reflexivity.
  - change (String c dir ++ String "/" rest) with (String c (dir ++ String "/" rest)).
    cbn [basename_from]. destruct (Ascii.eqb c "/"); apply IH.
Qed.

End PyStrMoreFacts.

(** ** The lookup *)

(** *** Correctness of the scan *)

Lemma fillna_inf_not_nan v : is_nan (fillna_inf v) = false.
Proof.
  unfold fillna_inf. destruct (is_nan v) eqn:E; [reflexivity | exact E].
Qed.

Lemma fillna_inf_id v : is_nan v = false -> fillna_inf v = v.
Proof. unfold fillna_inf. intros ->. reflexivity. Qed.

Lemma map_fillna_inf_id vs :
  Forall (fun v => is_nan v = false) vs -> map fillna_inf vs = vs.
Proof.
  induction 1 as [|v vs Hv _ IH]; simpl; [reflexivity|].
  rewrite fillna_inf_id, IH by assumption. reflexivity.
Qed.



Lemma forallb_is_nan_false vs :
  vs <> [] -> Forall (fun v => is_nan v = false) vs -> forallb is_nan vs = false.
Proof.
  destruct vs as [|v vs]; [congruence|].
  intros _ Hall. inversion Hall as [|? ? Hv _]; subst. simpl. rewrite Hv. reflexivity.
Qed.




(** *** The [dist_sq] column *)

Lemma marker_dist_sq_nonneg user_lat user_lon m :
  is_nan (lat m - user_lat) = false ->
  is_nan (lon m - user_lon) = false ->
  (0 <=? marker_dist_sq user_lat user_lon m) = true.
Proof.
  intros Hlat Hlon. unfold marker_dist_sq, scratch. simpl.
  apply Float64.add_nonneg; apply Float64.square_nonneg; assumption.
Qed.

(** Finite coordinates never give a NaN distance: the differences are numbers
    (possibly infinite after overflow), and so are their squares and the sum. *)
Lemma marker_dist_sq_not_nan user_lat user_lon m :
  is_finite user_lat = true -> is_finite user_lon = true -> finite_marker m ->
  is_nan (marker_dist_sq user_lat user_lon m) = false.
Proof.
  intros Hlat Hlon [Hm1 Hm2].
  apply (Float64.leb_not_nan 0), marker_dist_sq_nonneg;
    apply Float64.sub_finite_not_nan; assumption.
Qed.

Lemma dist_sq_column user_lat user_lon (df : DataFrame) :
  map dist_sq (map (scratch user_lat user_lon) df)
  = map (marker_dist_sq user_lat user_lon) df.
Proof. rewrite map_map. reflexivity. Qed.


Section LookupFacts.

Variable geodesic : float * float -> float * float -> float.




End LookupFacts.

(** Two scans over columns computed from the same rows agree as soon as the
    two columns compare every pair of rows the same way. *)
Lemma argmin_from_same_order {A : Type} (f g : A -> float) (l : list A) :
  forall x0 best_i i,
    (forall x y, In x (x0 :: l) -> In y (x0 :: l) -> (f x <? f y) = (g x <? g y)) ->
    argmin_from best_i (f x0) i (map f l) = argmin_from best_i (g x0) i (map g l).
Proof.
  induction l as [|x l IH]; intros x0 best_i i Hsame; simpl; [reflexivity|].
  rewrite (Hsame x x0) by (simpl; auto).
  destruct (g x <? g x0).
  - apply IH. intros a b Ha Hb. apply Hsame; simpl in *; tauto.
  - apply IH. intros a b Ha Hb. apply Hsame; simpl in *; tauto.
Qed.

Lemma idxmin_same_order {A : Type} (f g : A -> float) (l : list A) :
  Forall (fun x => is_nan (f x) = false) l ->
  Forall (fun x => is_nan (g x) = false) l ->
  (forall x y, In x l -> In y l -> (f x <? f y) = (g x <? g y)) ->
  idxmin (map f l) = idxmin (map g l).
Proof.
  intros Hf Hg Hsame.
  destruct l as [|x0 l]; [reflexivity|].
  unfold idxmin.
  rewrite !forallb_is_nan_false, !map_fillna_inf_id;
    try (apply Forall_map; assumption); try discriminate.
  simpl. f_equal. apply argmin_from_same_order. exact Hsame.
Qed.

(** ** The loader *)

Section LoaderFacts.

Variable py_float : string -> option float.
Variable soup_placemarks : string -> list Placemark.
Variable read_text : string -> string + string.

#[local] Abbreviation parse_placemark := (parse_placemark py_float).
#[local] Abbreviation parse_placemarks := (parse_placemarks py_float).
#[local] Abbreviation parse_kml_content := (parse_kml_content py_float soup_placemarks).
#[local] Abbreviation load_file := (load_file py_float soup_placemarks read_text).
#[local] Abbreviation contributes_nothing :=
  (contributes_nothing py_float soup_placemarks read_text).
#[local] Abbreviation row_of_file := (row_of_file py_float soup_placemarks read_text).

Lemma parse_placemarks_app before after :
  parse_placemarks (before ++ after)
  = parse_placemarks before ++ parse_placemarks after.
Proof.
  induction before as [|p before IH]; simpl; [reflexivity|].
  destruct (parse_placemark p); rewrite IH; reflexivity.
Qed.

(** The loop over the files only appends to its state. *)
Lemma load_loop_state files : forall all_data shown,
  fold_left load_file files (all_data, shown)
  = (all_data ++ fst (fold_left load_file files ([], [])),
     shown ++ snd (fold_left load_file files ([], []))).
Proof.
  induction files as [|f files IH]; intros all_data shown.
  - simpl. rewrite !app_nil_r. reflexivity.
  - cbn [fold_left]. unfold load_file at 2 4 6.
    destruct (read_text f) as [content|e].
    + destruct (parse_kml_content content) as [|pt pts].
      * apply IH.
      * set (df := map (with_source (PyStr.basename f)) (pt :: pts)).
        rewrite (IH (all_data ++ [df]) shown), (IH ([] ++ _) []).
        simpl. rewrite <- app_assoc. reflexivity.
    + set (w := Warning _).
      rewrite (IH all_data (shown ++ [w])), (IH [] ([] ++ _)).
      simpl. rewrite <- app_assoc. reflexivity.
Qed.

Lemma load_loop_cons f files :
  fold_left load_file (f :: files) ([], [])
  = (fst (load_file ([], []) f) ++ fst (fold_left load_file files ([], [])),
     snd (load_file ([], []) f) ++ snd (fold_left load_file files ([], []))).
Proof.
  cbn [fold_left]. destruct (load_file ([], []) f) as [d s].
  rewrite load_loop_state. reflexivity.
Qed.

Lemma load_loop_app files1 files2 :
  fold_left load_file (files1 ++ files2) ([], [])
  = (fst (fold_left load_file files1 ([], [])) ++ fst (fold_left load_file files2 ([], [])),
     snd (fold_left load_file files1 ([], [])) ++ snd (fold_left load_file files2 ([], []))).
Proof.
  rewrite fold_left_app.
  destruct (fold_left load_file files1 ([], [])) as [d1 s1].
  rewrite load_loop_state. reflexivity.
Qed.

(** What one file adds to the empty state. *)
Lemma load_file_readable f content :
  read_text f = inl content ->
  load_file ([], []) f
  = (match parse_kml_content content with
     | [] => []
     | df_kml => [map (with_source (PyStr.basename f)) df_kml]
     end, []).
Proof.
  intros H. unfold load_file. rewrite H.
  destruct (parse_kml_content content); reflexivity.
Qed.

Lemma load_file_unreadable f e :
  read_text f = inr e ->
  load_file ([], []) f
  = ([], [Warning ("⚠️ 無法讀取檔案 " ++ PyStr.basename f ++ ": " ++ e)%string]).
Proof. intros H. unfold load_file. rewrite H. reflexivity. Qed.

(** Every frame in [all_data] is non-empty and made of rows of one of the
    files. *)
Lemma load_loop_frames files :
  Forall (fun df => df <> [] /\
                    Forall (fun r => exists f, In f files /\ row_of_file f r) df)
         (fst (fold_left load_file files ([], []))).
Proof.
  induction files as [|f files IH]; [constructor|].
  rewrite load_loop_cons. cbn [fst].
  assert (Hrest : Forall (fun df => df <> [] /\
                    Forall (fun r => exists f', In f' (f :: files) /\ row_of_file f' r) df)
                    (fst (fold_left load_file files ([], [])))).
  { eapply Forall_impl; [|exact IH]. intros df [Hne Hrows]. split; [exact Hne|].
    eapply Forall_impl; [|exact Hrows]. intros r (f' & Hin & Hrow).
    exists f'. split; [right; exact Hin | exact Hrow]. }
  destruct (read_text f) as [content|e] eqn:Hread.
  - rewrite (load_file_readable f content Hread). cbn [fst].
    destruct (parse_kml_content content) as [|pt pts] eqn:Hp; [exact Hrest|].
    constructor; [|exact Hrest]. split; [discriminate|].
    apply Forall_forall. intros r Hr.
    exists f. split; [left; reflexivity|].
    apply in_map_iff in Hr as (pt' & <- & Hpt').
    exists content, pt'. rewrite Hp. auto.
  - rewrite (load_file_unreadable f e Hread). exact Hrest.
Qed.

(** [all_data] stays empty exactly when no file contributes. *)
Lemma load_loop_empty files :
  fst (fold_left load_file files ([], [])) = [] <-> Forall contributes_nothing files.
Proof.
  induction files as [|f files IH].
  - split; [constructor | reflexivity].
  - rewrite load_loop_cons. cbn [fst].
    destruct (read_text f) as [content|e] eqn:Hread.
    + rewrite (load_file_readable f content Hread). cbn [fst].
      destruct (parse_kml_content content) as [|pt pts] eqn:Hp.
      * rewrite app_nil_l, IH. split.
        -- intros H. constructor; [|exact H].
           unfold contributes_nothing. rewrite Hread. exact Hp.
        -- intros H. inversion H; assumption.
      * split; [discriminate|].
        intros H. inversion H as [|? ? Hf _]; subst.
        unfold contributes_nothing in Hf. rewrite Hread, Hp in Hf. discriminate.
    + rewrite (load_file_unreadable f e Hread). cbn [fst].
      rewrite app_nil_l, IH. split.
      * intros H. constructor; [|exact H].
        unfold contributes_nothing. rewrite Hread. exact I.
      * intros H. inversion H; assumption.
Qed.

Lemma concat_nonempty {A : Type} (frames : list (list A)) :
  frames <> [] -> Forall (fun df => df <> []) frames -> concat frames <> [].
Proof.
  destruct frames as [|df frames]; [congruence|].
  intros _ H. inversion H as [|? ? Hdf _]; subst. simpl.
  destruct df; [congruence | discriminate].
Qed.

End LoaderFacts.

(** The loader on a non-empty list of files. *)
Lemma load_files_nonempty py_float soup_placemarks read_text files data_folder :
  files <> [] ->
  load_files py_float soup_placemarks read_text files data_folder
  = (match fst (fold_left (load_file py_float soup_placemarks read_text) files ([], [])) with
     | [] => None
     | all_data => Some (concat all_data)
     end,
     snd (fold_left (load_file py_float soup_placemarks read_text) files ([], []))).
Proof.
  intros Hne. unfold load_files.
  destruct files as [|f files]; [congruence|].
  destruct (fold_left _ (f :: files) ([], [])) as [all_data shown].
  destruct all_data; reflexivity.
Qed.

(** ** The form, the loaded table and the messages *)


Lemma dms_to_dd_leb deg minute sec :
  (0 <=? deg) = true -> (0 <=? minute) = true -> (0 <=? sec) = true ->
  (0 <=? dms_to_dd deg minute sec) = true.
Proof.
  intros Hd Hm Hs. unfold dms_to_dd.
  apply Float64.add_nonneg; [apply Float64.add_nonneg; [exact Hd|]|].
  - eapply Float64More.div_nonneg; [vm_compute; reflexivity | exact Hm].
  - eapply Float64More.div_nonneg; [vm_compute; reflexivity | exact Hs].
Qed.


Section LoaderMoreFacts.

Variable py_float : string -> option float.
Variable soup_placemarks : string -> list Placemark.
Variable read_text : string -> string + string.




Lemma load_loop_warnings files :
  snd (fold_left (load_file py_float soup_placemarks read_text) files ([], []))
  = warnings read_text files.
Proof.
  induction files as [|f files IH]; [reflexivity|].
  rewrite load_loop_cons. cbn [snd]. rewrite IH.
  unfold warnings at 2. cbn [flat_map]. fold (warnings read_text files).
  destruct (read_text f) as [content|e] eqn:Hread.
  - rewrite (load_file_readable _ _ _ _ _ Hread). reflexivity.
  - rewrite (load_file_unreadable _ _ _ _ _ Hread). reflexivity.
Qed.

End LoaderMoreFacts.

Lemma load_files_rows_concat py_float soup_placemarks read_text files data_folder :
  rows (fst (load_files py_float soup_placemarks read_text files data_folder))
  = concat (fst (fold_left (load_file py_float soup_placemarks read_text) files ([], []))).
Proof.
  destruct files as [|f files]; [reflexivity|].
  rewrite load_files_nonempty by discriminate. cbn [fst].
  destruct (fst (fold_left _ (f :: files) ([], []))); reflexivity.
Qed.


Lemma all_chars_app f a b :
  PyStr.all_chars f (a ++ b)%string = PyStr.all_chars f a && PyStr.all_chars f b.
Proof.
  induction a as [|c a IH]; simpl; [reflexivity|].
  rewrite IH, andb_assoc. reflexivity.
Qed.

(** * Part III: the properties the specification states *)

(** ** The lookup *)




(** C5. On the empty table the lookup fails: [idxmin] of the empty [dist_sq]
    column raises, so no row and no distance is returned. *)
Theorem find_nearest_point_empty_fails :
  forall geodesic user_lat user_lon,
    idxmin (map dist_sq (map (scratch user_lat user_lon) [])) = None /\
    find_nearest_point geodesic [] user_lat user_lon = None.
Proof.
  intros geodesic user_lat user_lon. split.
  - reflexivity.
  - unfold find_nearest_point. simpl. reflexivity.
Qed.




(** C2, as stated, fails: the query (25, 121) is nearer to [north_marker] in
    degree space (0.0100 against 0.0102 degrees) and the lookup selects it,
    while the nearest marker by distance on the ground is [east_marker]
    (1029.69 m against 1107.73 m), because a degree of longitude is shorter
    than a degree of latitude away from the equator. *)
Lemma proxy_selection_differs_from_geodesic_selection :
  selected_marker metres_near_25N [east_marker; north_marker] 25.0 121.0
    <> find_nearest_by_geodesic metres_near_25N [east_marker; north_marker] 25.0 121.0 /\
  selected_marker metres_near_25N [east_marker; north_marker] 25.0 121.0
    = Some north_marker /\
  find_nearest_by_geodesic metres_near_25N [east_marker; north_marker] 25.0 121.0
    = Some east_marker /\
  (metres_near_25N (25.0, 121.0) (lat east_marker, lon east_marker)
     <? metres_near_25N (25.0, 121.0) (lat north_marker, lon north_marker)) = true.
Proof.
  assert (Hsel : selected_marker metres_near_25N [east_marker; north_marker] 25.0 121.0
                 = Some north_marker) by (vm_compute; reflexivity).
  assert (Hgeo : find_nearest_by_geodesic metres_near_25N [east_marker; north_marker]
                   25.0 121.0 = Some east_marker) by (vm_compute; reflexivity).
  split; [|split; [exact Hsel|split; [exact Hgeo|]]].
  - rewrite Hsel, Hgeo. vm_compute. intros H. discriminate H.
  - vm_compute. reflexivity.
Qed.

(** C2, amended. When the geodesic distances from the query are numbers and
    order the markers of the table exactly as their squared degree-space
    distances do, the marker the lookup selects is the one a first-minimum
    selection on the geodesic distances selects. *)
Theorem proxy_selection_equals_geodesic_selection :
  forall geodesic (df : DataFrame) user_lat user_lon,
    Forall finite_marker df ->
    is_finite user_lat = true -> is_finite user_lon = true ->
    Forall (fun m => is_nan (geodesic (user_lat, user_lon) (lat m, lon m)) = false) df ->
    (forall m m', In m df -> In m' df ->
       (marker_dist_sq user_lat user_lon m <? marker_dist_sq user_lat user_lon m')
       = (geodesic (user_lat, user_lon) (lat m, lon m)
            <? geodesic (user_lat, user_lon) (lat m', lon m'))) ->
    selected_marker geodesic df user_lat user_lon
    = find_nearest_by_geodesic geodesic df user_lat user_lon.
Proof.
  intros geodesic df user_lat user_lon Hfin Hlat Hlon Hgeo Hsame.
  unfold selected_marker, find_nearest_by_geodesic, find_nearest_point.
  rewrite dist_sq_column.
  rewrite (idxmin_same_order (marker_dist_sq user_lat user_lon)
             (fun m => geodesic (user_lat, user_lon) (lat m, lon m)) df); auto.
  - destruct (idxmin _) as [i|]; [|reflexivity].
    rewrite nth_error_map. destruct (nth_error df i); reflexivity.
  - eapply Forall_impl; [|exact Hfin].
    intros m Hm. apply marker_dist_sq_not_nan; assumption.
Qed.

Lemma proxy_selection_equals_geodesic_selection_witness :
  selected_marker metres_near_25N sample_table 25.048 121.517
  = find_nearest_by_geodesic metres_near_25N sample_table 25.048 121.517.
Proof.
  apply (proxy_selection_equals_geodesic_selection
           metres_near_25N sample_table 25.048 121.517).
  - repeat constructor.
  - reflexivity.
  - reflexivity.
  - repeat constructor.
  - intros m m' Hm Hm'. simpl in Hm, Hm'.
    destruct Hm as [<-|[<-|[<-|[]]]]; destruct Hm' as [<-|[<-|[<-|[]]]];
      vm_compute; reflexivity.
Defined.



(** ** The loader *)

(** C6. (1) A placemark that yields no point is skipped and the placemarks
    before and after it in the same file are parsed as if it were absent.
    (2) A file that cannot be read adds a warning to what is shown, and the
    table is the one the other files give.  (3) When no file of the data
    folder contributes a point, start-up ends on an error message and hands no
    table to the query form. *)
Theorem loader_error_handling :
  forall py_float soup_placemarks glob_kml read_text,
    (forall (before after : list Placemark) (bad : Placemark),
       parse_placemark py_float bad = None ->
       parse_placemarks py_float (before ++ bad :: after)
       = parse_placemarks py_float (before ++ after)) /\
    (forall (files_before files_after : list string) (unreadable e data_folder : string),
       read_text unreadable = inr e ->
       fst (load_files py_float soup_placemarks read_text
              (files_before ++ unreadable :: files_after) data_folder)
       = fst (load_files py_float soup_placemarks read_text
                (files_before ++ files_after) data_folder) /\
       In (Warning ("⚠️ 無法讀取檔案 " ++ PyStr.basename unreadable ++ ": " ++ e)%string)
          (snd (load_files py_float soup_placemarks read_text
                  (files_before ++ unreadable :: files_after) data_folder))) /\
    (Forall (contributes_nothing py_float soup_placemarks read_text) (glob_kml "./data/"%string) ->
     fst (load_all_kml_data py_float soup_placemarks glob_kml read_text "./data/") = None /\
     startup py_float soup_placemarks glob_kml read_text
     = (snd (load_all_kml_data py_float soup_placemarks glob_kml read_text "./data/")
          ++ [Error "請確認您已在程式旁的 `/data` 資料夾中放入 KML 檔案。"],
        None)).
Proof.
  intros py_float soup_placemarks glob_kml read_text. split; [|split].
  - intros before after bad Hbad.
    rewrite !parse_placemarks_app. simpl. rewrite Hbad. reflexivity.
  - intros files_before files_after unreadable e data_folder Hread.
    rewrite load_files_nonempty by (destruct files_before; discriminate).
    rewrite load_loop_app, load_loop_cons, (load_file_unreadable _ _ _ _ _ Hread).
    cbn [fst snd app]. split.
    + destruct (files_before ++ files_after) as [|f fs] eqn:Hfiles.
      * apply app_eq_nil in Hfiles as [-> ->]. reflexivity.
      * rewrite <- Hfiles.
        rewrite load_files_nonempty by (rewrite Hfiles; discriminate).
        rewrite load_loop_app. reflexivity.
    + apply in_or_app. right. left. reflexivity.
  - intros Hnone.
    assert (Hload : fst (load_all_kml_data py_float soup_placemarks glob_kml read_text
                           "./data/") = None).
    { unfold load_all_kml_data.
      destruct (glob_kml "./data/"%string) as [|f fs] eqn:Hglob; [reflexivity|].
      rewrite load_files_nonempty by discriminate.
      apply load_loop_empty in Hnone. rewrite Hnone. reflexivity. }
    split; [exact Hload|].
    unfold startup.
    destruct (load_all_kml_data _ _ _ _ _) as [df_all shown]. simpl in Hload. subst df_all.
    reflexivity.
Qed.

Lemma loader_error_handling_witness :
  parse_placemarks sample_float ([sample_placemark] ++ malformed_placemark :: [unnamed_placemark])
  = parse_placemarks sample_float ([sample_placemark] ++ [unnamed_placemark]) /\
  (fst (load_files sample_float sample_soup sample_read
          (["./data/N1.kml"%string] ++ "./data/N2.kml"%string :: ["./data/N3.kml"%string]) "./data/")
   = fst (load_files sample_float sample_soup sample_read
            (["./data/N1.kml"%string] ++ ["./data/N3.kml"%string]) "./data/") /\
   In (Warning ("⚠️ 無法讀取檔案 " ++ PyStr.basename "./data/N2.kml"
                  ++ ": " ++ "[Errno 13] Permission denied")%string)
      (snd (load_files sample_float sample_soup sample_read
              (["./data/N1.kml"%string] ++ "./data/N2.kml"%string :: ["./data/N3.kml"%string])
              "./data/"))) /\
  (fst (load_all_kml_data sample_float sample_soup sample_glob sample_read "./data/") = None /\
   startup sample_float sample_soup sample_glob sample_read
   = (snd (load_all_kml_data sample_float sample_soup sample_glob sample_read "./data/")
        ++ [Error "請確認您已在程式旁的 `/data` 資料夾中放入 KML 檔案。"],
      None)).
Proof.
  destruct (loader_error_handling sample_float sample_soup sample_glob sample_read)
    as (Hskip & Hwarn & Hempty).
  split; [|split].
  - apply Hskip. reflexivity.
  - apply Hwarn. reflexivity.
  - apply Hempty. repeat constructor.
Defined.

(** C9. The loader never returns an empty table.  Its result is [None]
    exactly when the folder has no KML file or no file contributes a point;
    otherwise it is a table with at least one row, and every row was parsed
    from one of the files and carries that file's basename as [source]. *)
Theorem load_all_kml_data_never_empty :
  forall py_float soup_placemarks glob_kml read_text data_folder,
    match fst (load_all_kml_data py_float soup_placemarks glob_kml read_text data_folder) with
    | None =>
        Forall (contributes_nothing py_float soup_placemarks read_text) (glob_kml data_folder)
    | Some df =>
        df <> [] /\
        ~ Forall (contributes_nothing py_float soup_placemarks read_text)
            (glob_kml data_folder) /\
        forall r, In r df ->
          exists filepath content pt,
            In filepath (glob_kml data_folder) /\
            read_text filepath = inl content /\
            In pt (parse_kml_content py_float soup_placemarks content) /\
            r = with_source (PyStr.basename filepath) pt /\
            source r = PyStr.basename filepath
    end.
Proof.
  intros py_float soup_placemarks glob_kml read_text data_folder.
  unfold load_all_kml_data.
  destruct (glob_kml data_folder) as [|f fs] eqn:Hglob; [constructor|].
  rewrite load_files_nonempty by discriminate. cbn [fst].
  pose proof (load_loop_frames py_float soup_placemarks read_text (f :: fs)) as Hframes.
  pose proof (load_loop_empty py_float soup_placemarks read_text (f :: fs)) as Hempty.
  destruct (fst (fold_left _ (f :: fs) ([], []))) as [|df0 frames] eqn:Hall.
  - apply Hempty. reflexivity.
  - split; [|split].
    + apply concat_nonempty; [discriminate|].
      eapply Forall_impl; [|exact Hframes]. intros df [Hne _]. exact Hne.
    + intros Hnone. apply Hempty in Hnone. discriminate.
    + intros r Hr. apply in_concat in Hr as (df & Hdf & Hr).
      rewrite Forall_forall in Hframes.
      destruct (Hframes df Hdf) as [_ Hrows].
      rewrite Forall_forall in Hrows.
      destruct (Hrows r Hr) as (filepath & Hin & content & pt & Hread & Hpt & ->).
      exists filepath, content, pt. repeat split; assumption.
Qed.

(** C10. A placemark without [coordinates] element yields no point.  With
    one, only the first white-space-separated tuple of its text is used: its
    first comma-separated component is read as the longitude and its second as
    the latitude, and the placemark is skipped when the text has no tuple,
    the tuple has fewer than two components, or either is not a number.  In
    particular, when the text is [lead ++ tok ++ trail], with [lead] white space,
    [tok] a non-empty run of ASCII characters without white space, and [trail]
    empty or starting with white space, only [tok] is used: without a comma in
    it the placemark is skipped; when it is [a,b] followed by nothing or by a
    comma, [a] is read as the longitude and [b] as the latitude (and the
    placemark is skipped when either is not a number).  The point is labelled
    by the text of the [name] element, or "未命名" when there is none. *)
Theorem parse_placemark_first_tuple :
  forall py_float (p : Placemark),
    (pm_coordinates p = None -> parse_placemark py_float p = None) /\
    (forall text,
       pm_coordinates p = Some text ->
       parse_placemark py_float p
       = match PyStr.split (PyStr.strip text) with
         | [] => None
         | first_tuple :: _ =>
             match PyStr.split_on "," first_tuple with
             | lon_text :: lat_text :: _ =>
                 match py_float lon_text, py_float lat_text with
                 | Some lon, Some lat =>
                     Some {| pt_name := match pm_name p with
                                        | Some label => label
                                        | None => "未命名"
                                        end;
                             pt_lat := lat;
                             pt_lon := lon |}
                 | _, _ => None
                 end
             | _ => None
             end
         end) /\
    (forall lead tok trail,
       pm_coordinates p = Some (lead ++ tok ++ trail)%string ->
       PyStr.all_chars PyStr.is_ascii_space lead = true ->
       tok <> EmptyString ->
       PyStr.all_chars PyStr.is_token_char tok = true ->
       PyStr.at_space trail = true ->
       (PyStr.all_chars PyStr.not_comma tok = true ->
        parse_placemark py_float p = None) /\
       (forall a b more,
          tok = (a ++ String "," (b ++ more))%string ->
          PyStr.all_chars PyStr.not_comma a = true ->
          PyStr.all_chars PyStr.not_comma b = true ->
          PyStr.at_comma more = true ->
          parse_placemark py_float p
          = match py_float a, py_float b with
            | Some lon, Some lat =>
                Some {| pt_name := match pm_name p with
                                   | Some text => text
                                   | None => "未命名"
                                   end;
                        pt_lat := lat;
                        pt_lon := lon |}
            | _, _ => None
            end)).
Proof.
  intros py_float p. split; [|split].
  - intros Hnone. unfold parse_placemark. rewrite Hnone. reflexivity.
  - intros text Hcoord. unfold parse_placemark. rewrite Hcoord.
    destruct (PyStr.split (PyStr.strip text)) as [|first_tuple others]; [reflexivity|].
    destruct (PyStr.split_on "," first_tuple) as [|lon_text [|lat_text rest]];
      reflexivity.
  - intros lead tok trail Hcoord Hlead Hne Htok Htrail.
    destruct (PyStrFacts.split_strip_first_token lead tok trail Hlead Hne Htok Htrail)
      as [more_tuples Hsplit].
    unfold parse_placemark. rewrite Hcoord, Hsplit. split.
    + intros Hnc. rewrite (PyStrFacts.split_on_comma_single tok Hnc). reflexivity.
    + intros a b more -> Ha Hb Hmore.
      destruct (PyStrFacts.split_on_comma_two a b more Ha Hb Hmore) as [others Hparts].
      rewrite Hparts.
      destruct (py_float a); [|reflexivity].
      destruct (py_float b); reflexivity.
Qed.

Lemma parse_placemark_first_tuple_witness :
  parse_placemark sample_float sample_placemark
  = Some {| pt_name := "023K+500"; pt_lat := 25.0330; pt_lon := 121.5654 |}.
Proof.
  assert (Hne : "121.5654,25.0330,0"%string <> EmptyString) by discriminate.
  exact (proj2
           (proj2 (proj2 (parse_placemark_first_tuple sample_float sample_placemark))
              " "%string "121.5654,25.0330,0"%string "  121.5170,25.0478,0 "%string
              eq_refl eq_refl Hne eq_refl eq_refl)
           "121.5654"%string "25.0330"%string ",0"%string
           eq_refl eq_refl eq_refl eq_refl).
Defined.

(** * Part IV: further properties of the program *)

(** X1. Whole degrees convert to themselves: with zero minutes and zero
    seconds, [dms_to_dd] returns a float equal to [deg], for every number
    [deg]. *)
Theorem dms_to_dd_whole_degrees :
  forall deg, is_nan deg = false -> (dms_to_dd deg 0 0 =? deg) = true.
Proof.
  intros deg Hdeg. unfold dms_to_dd.
  change (0 / 60) with 0. change (0 / 3600) with 0.
  pose proof (Float64More.add_zero_eqb deg Hdeg) as H1.
  assert (Hsum : is_nan (deg + 0) = false).
  { rewrite Float64.not_nan_nonnan. rewrite eqb_spec in H1.
    eapply Float64More.SFeqb_nonnan, H1. }
  pose proof (Float64More.add_zero_eqb (deg + 0) Hsum) as H2.
  rewrite eqb_spec in *. eapply Float64More.SFeqb_trans; eassumption.
Qed.

Lemma dms_to_dd_whole_degrees_witness : (dms_to_dd 121 0 0 =? 121) = true.
Proof. apply (dms_to_dd_whole_degrees 121). reflexivity. Defined.

(** X2. Non-negative degrees, minutes and seconds convert to a non-negative
    number: the result is never negative and never a NaN. *)
Theorem dms_to_dd_nonneg :
  forall deg minute sec,
    (0 <=? deg) = true -> (0 <=? minute) = true -> (0 <=? sec) = true ->
    (0 <=? dms_to_dd deg minute sec) = true /\
    is_nan (dms_to_dd deg minute sec) = false.
Proof.
  intros deg minute sec Hd Hm Hs.
  pose proof (dms_to_dd_leb deg minute sec Hd Hm Hs) as H.
  split; [exact H|]. apply (Float64.leb_not_nan 0), H.
Qed.

Lemma dms_to_dd_nonneg_witness :
  (0 <=? dms_to_dd 25 2 53) = true /\ is_nan (dms_to_dd 25 2 53) = false.
Proof. apply (dms_to_dd_nonneg 25 2 53); reflexivity. Defined.

(** X3. The squared degree-space distance the lookup ranks by is symmetric:
    the [dist_sq] of marker [b] for a query at marker [a] is the same float as
    the [dist_sq] of [a] for a query at [b]. *)
Theorem marker_dist_sq_symmetric :
  forall a b : Marker,
    marker_dist_sq (lat a) (lon a) b = marker_dist_sq (lat b) (lon b) a.
Proof.
  intros a b. unfold marker_dist_sq, scratch. simpl.
  rewrite (Float64More.square_sub_swap (lat b) (lat a)).
  rewrite (Float64More.square_sub_swap (lon b) (lon a)).
  reflexivity.
Qed.






(** X7. The loader goes through the files in order and keeps their rows
    apart: the rows loaded from the files [files1 ++ files2] are the rows
    loaded from [files1] followed by the rows loaded from [files2]. *)
Theorem load_files_rows_app :
  forall py_float soup_placemarks read_text files1 files2 data_folder,
    rows (fst (load_files py_float soup_placemarks read_text (files1 ++ files2) data_folder))
    = rows (fst (load_files py_float soup_placemarks read_text files1 data_folder))
      ++ rows (fst (load_files py_float soup_placemarks read_text files2 data_folder)).
Proof.
  intros py_float soup_placemarks read_text files1 files2 data_folder.
  rewrite !load_files_rows_concat, load_loop_app. cbn [fst].
  apply concat_app.
Qed.

(** X8. When the folder has KML files, what the loader shows is exactly one
    warning for each file that cannot be read, in the order of the files; a
    file that is read and yields no point is dropped without any message. *)
Theorem load_files_messages :
  forall py_float soup_placemarks read_text files data_folder,
    files <> [] ->
    snd (load_files py_float soup_placemarks read_text files data_folder)
    = warnings read_text files.
Proof.
  intros py_float soup_placemarks read_text files data_folder Hne.
  rewrite load_files_nonempty by exact Hne. cbn [snd].
  apply load_loop_warnings.
Qed.

Lemma load_files_messages_witness :
  snd (load_files sample_float sample_soup sample_read
         ["./data/N1.kml"%string; "./data/N2.kml"%string; "./data/N3.kml"%string]
         "./data/")
  = warnings sample_read
      ["./data/N1.kml"%string; "./data/N2.kml"%string; "./data/N3.kml"%string].
Proof.
  apply (load_files_messages sample_float sample_soup sample_read). discriminate.
Defined.

(** X9. For a row loaded from the file [dir/stem.kml], where [stem] contains
    neither a slash nor a dot, the source the result panel shows is [stem]. *)
Theorem source_file_is_stem :
  forall (dir stem : string) (pt : Point) (distance u_lat u_lon : float),
    PyStr.all_chars PyStrMore.not_slash stem = true ->
    PyStr.all_chars PyStrMore.not_dot stem = true ->
    source_file
      (show_result
         (scratch u_lat u_lon
            (with_source (PyStr.basename (dir ++ String "/" (stem ++ ".kml"))%string) pt))
         distance u_lat u_lon)
    = stem.
Proof.
  intros dir stem pt distance u_lat u_lon Hslash Hdot. simpl.
  unfold PyStr.basename.
  rewrite PyStrMoreFacts.basename_from_dir, PyStrMoreFacts.basename_from_file.
  - simpl. rewrite PyStrMoreFacts.remove_kml_prefix by exact Hdot.
    change (PyStrMore.remove ".kml" ".kml") with EmptyString.
    apply PyStrFacts.append_nil_r.
  - rewrite all_chars_app, Hslash. reflexivity.
Qed.

Lemma source_file_is_stem_witness :
  source_file
    (show_result
       (scratch 25.048 121.517
          (with_source (PyStr.basename ("./data" ++ String "/" ("N1" ++ ".kml"))%string)
             {| pt_name := "023K+500"; pt_lat := 25.0330; pt_lon := 121.5654 |}))
       5159.3 25.048 121.517)
  = "N1"%string.
Proof.
  apply (source_file_is_stem "./data" "N1"); reflexivity.
Defined.


